(** * Verification of [demos/code-viewer-sample.py]

    The module holds two functions over in-memory sequences of numbers:
    [normalise] (min-max scaling) and [summarise] (count and mean of the
    entries that are not [None]).  The file has three embeddings of them.

    Exact arithmetic.  The contract of the module is stated over real
    numbers.  In the first embedding a number is an exact rational [Q]
    (every finite [float] is one), [+], [-] and [/] are exact, and [==],
    [<] are the numeric comparisons [Qeq_bool] and [Qlt_bool].  Two
    rationals are the same number when they are related by [Qeq] (written
    [==]), which is what Python's [==] decides.  Rounding, overflow,
    infinities and NaN are outside this embedding: a theorem on it is a
    statement in exact arithmetic.

    Binary64.  The second embedding, [Binary64], is the same code on the
    numbers the program runs on, IEEE 754 binary64.  It evaluates on every
    concrete input and shows where the floats leave exact arithmetic.

    The object store.  The third embedding, [Store], takes the argument
    and the result as references into a store of objects, and transcribes
    the bodies statement by statement.

    Errors.  [min] and [max] of an empty sequence, [/] by zero,
    [statistics.mean] of an empty sequence and an operator applied to
    [None] raise; the embeddings return [Err e] there, so that "the
    function raises nothing" is a theorem and not an assumption. *)

From Stdlib Require Import List QArith ZArith Lia Lqa Bool Permutation.
From Stdlib Require Import PrimFloat SpecFloat FloatOps.
Import ListNotations.

Local Open Scope Q_scope.

(** ** Exceptions as values *)

Inductive error : Type :=
| ValueError
| ZeroDivisionError
| StatisticsError
| TypeError.

Inductive result (A : Type) : Type :=
| Ok (a : A)
| Err (e : error).

Arguments Ok {A} a.
Arguments Err {A} e.

Definition bind {A B : Type} (m : result A) (k : A -> result B) : result B :=
  match m with
  | Ok a => k a
  | Err e => Err e
  end.

Notation "x <- m ;; k" := (bind m (fun x => k))
  (at level 61, m at next level, right associativity).

(** A list comprehension [[f x for x in xs]] whose body may raise: elements
    are evaluated left to right and the first exception ends the loop. *)
Fixpoint comprehension {A B : Type} (f : A -> result B) (xs : list A)
  : result (list B) :=
  match xs with
  | [] => Ok []
  | x :: rest =>
      y <- f x ;;
      ys <- comprehension f rest ;;
      Ok (y :: ys)
  end.

(** ** The Python primitives the module calls *)

(** [a < b] on numbers. *)
Definition Qlt_bool (a b : Q) : bool := negb (Qle_bool b a).

(** [min(values)]: the first element is the candidate, every later element
    replaces it when it is strictly smaller; [ValueError] on an empty
    sequence. *)
Definition py_min (values : list Q) : result Q :=
  match values with
  | [] => Err ValueError
  | first :: rest =>
      Ok (fold_left (fun best item => if Qlt_bool item best then item else best)
                    rest first)
  end.

(** [max(values)]: as [min], replacing the candidate by a strictly greater
    element. *)
Definition py_max (values : list Q) : result Q :=
  match values with
  | [] => Err ValueError
  | first :: rest =>
      Ok (fold_left (fun best item => if Qlt_bool best item then item else best)
                    rest first)
  end.

(** [a / b]: true division, [ZeroDivisionError] when [b == 0]. *)
Definition py_div (a b : Q) : result Q :=
  if Qeq_bool b 0 then Err ZeroDivisionError else Ok (a / b).

(** The truth value of a list, as [if values] and [not values] test it:
    false exactly for the empty list. *)
Definition truth {A : Type} (values : list A) : bool :=
  match values with
  | [] => false
  | _ :: _ => true
  end.

(** [len(values)], a Python [int]. *)
Definition len {A : Type} (values : list A) : Z := Z.of_nat (length values).

(** ** [normalise] *)

Definition normalise (values : list Q) : result (list Q) :=
  if negb (truth values) then Ok []
  else
    lower <- py_min values ;;
    upper <- py_max values ;;
    if Qeq_bool lower upper then
      Ok (map (fun _ => 1) values)
    else
      let spread := upper - lower in
      comprehension (fun value => py_div (value - lower) spread) values.

(** ** [summarise] *)

(** An entry of the sequence handed to [summarise]: a number or [None]. *)
Inductive value : Type :=
| PyNone
| PyFloat (x : Q).

(** [value is not None]. *)
Definition is_not_None (v : value) : bool :=
  match v with
  | PyNone => false
  | PyFloat _ => true
  end.

(** The running total of [statistics.mean], accumulated left to right; an
    entry that is not a number makes the addition raise [TypeError]. *)
Fixpoint sum_from (total : Q) (data : list value) : result Q :=
  match data with
  | [] => Ok total
  | PyNone :: _ => Err TypeError
  | PyFloat x :: rest => sum_from (total + x) rest
  end.

(** [statistics.mean(data)]: [StatisticsError] when there is no data point,
    otherwise the total divided by the number of data points. *)
Definition mean (data : list value) : result Q :=
  total <- sum_from 0 data ;;
  let n := len data in
  if (n <? 1)%Z then Err StatisticsError
  else py_div total (inject_Z n).

Record Summary : Type := mkSummary {
  count : Z;
  average : Q
}.

Definition summarise (values : list value) : result Summary :=
  let cleaned := filter is_not_None values in
  average <- (if truth cleaned then mean cleaned else Ok 0) ;;
  Ok {| count := len cleaned; average := average |}.

(** ** The binary64 transcription

    The same two functions on the machine's numbers: a Python [float] is
    an IEEE 754 binary64 value, which is Rocq's primitive [float], and
    [-], [/], [<], [==] are its operations.  This transcription evaluates
    on every concrete input; it is where the exact model above is compared
    with what the code computes. *)

Module Binary64.

(** [min(values)] and [max(values)] on floats; a comparison with NaN is
    false, so a NaN is never selected over the candidate and is never given
    up once it is the candidate. *)
Definition py_min (values : list float) : result float :=
  match values with
  | [] => Err ValueError
  | first :: rest =>
      Ok (fold_left
            (fun best item => if PrimFloat.ltb item best then item else best)
            rest first)
  end.

Definition py_max (values : list float) : result float :=
  match values with
  | [] => Err ValueError
  | first :: rest =>
      Ok (fold_left
            (fun best item => if PrimFloat.ltb best item then item else best)
            rest first)
  end.

(** [a / b] on floats: [ZeroDivisionError] when [b == 0.0] (either zero),
    the IEEE quotient otherwise. *)
Definition py_div (a b : float) : result float :=
  if PrimFloat.eqb b 0%float then Err ZeroDivisionError
  else Ok (PrimFloat.div a b).

Definition normalise (values : list float) : result (list float) :=
  if negb (truth values) then Ok []
  else
    lower <- py_min values ;;
    upper <- py_max values ;;
    if PrimFloat.eqb lower upper then
      Ok (map (fun _ => 1%float) values)
    else
      let spread := PrimFloat.sub upper lower in
      comprehension (fun value => py_div (PrimFloat.sub value lower) spread)
                    values.

Inductive value : Type :=
| PyNone
| PyFloat (x : float).

Definition is_not_None (v : value) : bool :=
  match v with
  | PyNone => false
  | PyFloat _ => true
  end.

(** [x.as_integer_ratio()]: the rational a finite float stands for; there
    is none for an infinity or a NaN. *)
Definition exact (x : float) : option Q :=
  match FloatOps.Prim2SF x with
  | S754_zero _ => Some 0
  | S754_finite s m e => Some (inject_Z (cond_Zopp s (Zpos m)) * Qpower 2 e)
  | S754_infinity _ => None
  | S754_nan => None
  end.

(** [float(q)] for an exact rational [q]: the numerator divided by the
    denominator, rounded once, to nearest with ties to even.  (Beyond the
    range of the floats Python raises [OverflowError] where this gives an
    infinity; the mean of finite floats is never there.) *)
Definition nearest (q : Q) : float :=
  let integer (z : Z) : spec_float :=
    match z with
    | Z0 => S754_zero false
    | Zpos p => S754_finite false p 0
    | Zneg p => S754_finite true p 0
    end in
  FloatOps.SF2Prim
    (SFdiv FloatOps.prec FloatOps.emax
           (integer (Qnum q)) (integer (Zpos (Qden q)))).

(** The sums of [statistics.mean]: finite entries are added as exact
    rationals, infinities and NaNs are added apart, as floats; [None] has
    no ratio and raises [TypeError]. *)
Fixpoint sum_from (total : Q) (special : option float) (data : list value)
  : result (Q * option float) :=
  match data with
  | [] => Ok (total, special)
  | PyNone :: _ => Err TypeError
  | PyFloat x :: rest =>
      match exact x with
      | Some q => sum_from (total + q) special rest
      | None =>
          let so_far := match special with Some s => s | None => 0%float end in
          sum_from total (Some (PrimFloat.add so_far x)) rest
      end
  end.

(** [statistics.mean(data)]: [StatisticsError] without a data point; with
    an infinity or a NaN among the data, their float sum over [n];
    otherwise the exact total over [n], rounded once.  [n >= 1] where a
    division is made, so none of them raises. *)
Definition mean (data : list value) : result float :=
  sums <- sum_from 0 None data ;;
  let n := len data in
  if (n <? 1)%Z then Err StatisticsError
  else
    match snd sums with
    | Some s => Ok (PrimFloat.div s (nearest (inject_Z n)))
    | None => Ok (nearest (fst sums / inject_Z n))
    end.

Record Summary : Type := mkSummary {
  count : Z;
  average : float
}.

Definition summarise (values : list value) : result Summary :=
  let cleaned := filter is_not_None values in
  average <- (if truth cleaned then mean cleaned else Ok 0%float) ;;
  Ok {| count := len cleaned; average := average |}.

End Binary64.

(** ** Calls on the object store

    A Python function receives a reference to its argument and returns a
    reference.  A body is a computation on the store: it reads objects,
    allocates objects, ends with a value or with an exception, and leaves a
    store.  The two bodies are transcribed statement by statement; each
    use of a name reads the object the name refers to.  The entries of a
    list are Python values, a number or [None], and the operators raise
    [TypeError] on [None] as Python's do. *)

Module Store.

Definition addr : Type := nat.

Inductive object : Type :=
| ListObj (items : list value)
| SummaryObj (s : Summary).

Definition heap : Type := list object.

Definition load (h : heap) (a : addr) : option object := nth_error h a.

(** A computation on the store. *)
Definition M (A : Type) : Type := heap -> result A * heap.

Definition ret {A : Type} (a : A) : M A := fun h => (Ok a, h).

Definition lift {A : Type} (r : result A) : M A := fun h => (r, h).

Definition bind {A B : Type} (m : M A) (k : A -> M B) : M B :=
  fun h =>
    match m h with
    | (Ok a, h') => k a h'
    | (Err e, h') => (Err e, h')
    end.

Notation "x <~ m ;; k" := (bind m (fun x => k))
  (at level 61, m at next level, right associativity).

(** Iterating over the object at [a]: its items when it is a list,
    [TypeError] when it is not iterable. *)
Definition read (a : addr) : M (list value) :=
  fun h =>
    match load h a with
    | Some (ListObj items) => (Ok items, h)
    | _ => (Err TypeError, h)
    end.

(** The truth value of the object at [a]: a list is true when it is not
    empty, a [Summary] is true. *)
Definition truth_at (a : addr) : M bool :=
  fun h =>
    match load h a with
    | Some (ListObj items) => (Ok (truth items), h)
    | Some (SummaryObj _) => (Ok true, h)
    | None => (Err TypeError, h)
    end.

(** A list display, a list comprehension or a constructor call: the new
    object gets an address that was not in use. *)
Definition new (o : object) : M addr :=
  fun h => (Ok (length h), h ++ [o]).

(** [a < b], [a == b], [a - b] and [a / b] on Python values. *)
Definition lt (a b : value) : result bool :=
  match a, b with
  | PyFloat x, PyFloat y => Ok (Qlt_bool x y)
  | _, _ => Err TypeError
  end.

Definition equal (a b : value) : bool :=
  match a, b with
  | PyNone, PyNone => true
  | PyFloat x, PyFloat y => Qeq_bool x y
  | _, _ => false
  end.

Definition sub (a b : value) : result value :=
  match a, b with
  | PyFloat x, PyFloat y => Ok (PyFloat (x - y))
  | _, _ => Err TypeError
  end.

Definition truediv (a b : value) : result value :=
  match a, b with
  | PyFloat x, PyFloat y => q <- py_div x y ;; Ok (PyFloat q)
  | _, _ => Err TypeError
  end.

(** The loop of [min] and [max]: [better item best] decides whether the
    item replaces the candidate. *)
Fixpoint best_of (better : value -> value -> result bool)
  (best : value) (rest : list value) : result value :=
  match rest with
  | [] => Ok best
  | item :: rest' =>
      b <- better item best ;;
      best_of better (if b then item else best) rest'
  end.

Definition min (values : list value) : result value :=
  match values with
  | [] => Err ValueError
  | first :: rest => best_of (fun item best => lt item best) first rest
  end.

Definition max (values : list value) : result value :=
  match values with
  | [] => Err ValueError
  | first :: rest => best_of (fun item best => lt best item) first rest
  end.

Definition normalise (values : addr) : M addr :=
  nonempty <~ truth_at values ;;
  if negb nonempty then new (ListObj [])
  else
    lower <~ (items <~ read values ;; lift (min items)) ;;
    upper <~ (items <~ read values ;; lift (max items)) ;;
    if equal lower upper then
      items <~ read values ;;
      new (ListObj (map (fun _ => PyFloat 1) items))
    else
      spread <~ lift (sub upper lower) ;;
      items <~ read values ;;
      out <~ lift (comprehension
                     (fun value => d <- sub value lower ;; truediv d spread)
                     items) ;;
      new (ListObj out).

Definition summarise (values : addr) : M addr :=
  items <~ read values ;;
  cleaned <~ new (ListObj (filter is_not_None items)) ;;
  n <~ (kept <~ read cleaned ;; ret (len kept)) ;;
  nonempty <~ truth_at cleaned ;;
  average <~ (if nonempty then kept <~ read cleaned ;; lift (mean kept)
              else ret 0) ;;
  new (SummaryObj {| count := n; average := average |}).

End Store.

(** ** What the contract talks about

    The definitions below follow the words of the contract, not the code:
    they are what the theorems compare the code with. *)

(** [lower] is the minimum of [values]: some entry is that number and no
    entry is smaller. *)
Definition is_minimum (lower : Q) (values : list Q) : Prop :=
  Exists (fun v => v == lower) values /\ Forall (fun v => lower <= v) values.

(** [upper] is the maximum of [values]. *)
Definition is_maximum (upper : Q) (values : list Q) : Prop :=
  Exists (fun v => v == upper) values /\ Forall (fun v => v <= upper) values.

(** Two sequences hold the same numbers, position by position. *)
Definition same_numbers (xs ys : list Q) : Prop := Forall2 Qeq xs ys.

(** The entries that are not absent, in their order. *)
Fixpoint retained (values : list value) : list Q :=
  match values with
  | [] => []
  | PyNone :: rest => retained rest
  | PyFloat x :: rest => x :: retained rest
  end.

(** The sum of a sequence of numbers. *)
Fixpoint total (xs : list Q) : Q :=
  match xs with
  | [] => 0
  | x :: rest => x + total rest
  end.

(** Every object of the store [h] is still there, the same, in [h']. *)
Definition unchanged (h h' : Store.heap) : Prop :=
  forall (a : Store.addr) (o : Store.object),
    Store.load h a = Some o -> Store.load h' a = Some o.

(** No object lives at [a] in [h]. *)
Definition fresh (h : Store.heap) (a : Store.addr) : Prop :=
  Store.load h a = None.



(** The retained entries of a sequence of binary64 values, and the exact
    rationals of a sequence of finite floats. *)
Fixpoint retained_floats (values : list Binary64.value) : list float :=
  match values with
  | [] => []
  | Binary64.PyNone :: rest => retained_floats rest
  | Binary64.PyFloat x :: rest => x :: retained_floats rest
  end.

Fixpoint exact_values (xs : list float) : option (list Q) :=
  match xs with
  | [] => Some []
  | x :: rest =>
      match Binary64.exact x, exact_values rest with
      | Some q, Some qs => Some (q :: qs)
      | _, _ => None
      end
  end.

(** A computation that changes no object of the store: whatever it does,
    the store it leaves is the store it found with objects added. *)
Definition only_allocates {A : Type} (m : Store.M A) : Prop :=
  forall h : Store.heap, exists added, snd (m h) = h ++ added.

(** A computation whose result, when it returns one, is the address of an
    object that was not in the store before. *)
Definition returns_fresh (m : Store.M Store.addr) : Prop :=
  forall (h h' : Store.heap) (r : Store.addr),
    m h = (Ok r, h') ->
    fresh h r /\ exists o, Store.load h' r = Some o.

(** ** Scenarios of the contract, by evaluation *)

Example normalise_scenario_123 :
  normalise [1; 2; 3] = Ok [0 # 2; 1 # 2; 2 # 2].
Proof. reflexivity. Qed.

Example normalise_scenario_123_numbers :
  same_numbers [0 # 2; 1 # 2; 2 # 2] [0; 1 # 2; 1].
Proof. repeat constructor; reflexivity. Qed.

Example normalise_scenario_5 : normalise [5] = Ok [1].
Proof. reflexivity. Qed.

Example summarise_scenario_123 :
  summarise [PyFloat 1; PyFloat 2; PyFloat 3] = Ok (mkSummary 3 (6 # 3)).
Proof. reflexivity. Qed.

Example summarise_scenario_empty : summarise [] = Ok (mkSummary 0 0).
Proof. reflexivity. Qed.

Example summarise_scenario_absent :
  summarise [PyFloat 1; PyNone; PyFloat 3] = Ok (mkSummary 2 (4 # 2)).
Proof. reflexivity. Qed.

(** ** Comparisons *)

Lemma Qlt_bool_true (a b : Q) : Qlt_bool a b = true <-> a < b.
Proof.
  unfold Qlt_bool. rewrite negb_true_iff. split; intro H.
  - apply Qnot_le_lt. intro Hle. apply Qle_bool_iff in Hle. congruence.
  - destruct (Qle_bool b a) eqn:E; [|reflexivity].
    apply Qle_bool_iff in E. lra.
Qed.

Lemma Qlt_bool_false (a b : Q) : Qlt_bool a b = false <-> b <= a.
Proof.
  unfold Qlt_bool. rewrite negb_false_iff. apply Qle_bool_iff.
Qed.

Lemma Qeq_bool_false (a b : Q) : Qeq_bool a b = false <-> ~ a == b.
Proof.
  split; intro H.
  - intro E. apply Qeq_bool_iff in E. congruence.
  - destruct (Qeq_bool a b) eqn:E; [|reflexivity].
    apply Qeq_bool_iff in E. contradiction.
Qed.

(** ** [min] and [max] return the minimum and the maximum *)

Lemma fold_min_spec (rest : list Q) : forall first,
  let m := fold_left (fun best item => if Qlt_bool item best then item else best)
                     rest first in
  In m (first :: rest) /\ m <= first /\ Forall (fun v => m <= v) rest.
Proof.
  induction rest as [|x rest IH]; intros first; cbn.
  - repeat split; [now left | lra | constructor].
  - specialize (IH (if Qlt_bool x first then x else first)).
    cbn in IH. destruct IH as (Hin & Hle & Hall).
    destruct (Qlt_bool x first) eqn:E.
    + apply Qlt_bool_true in E.
      repeat split.
      * destruct Hin as [<- | Hin]; [right; now left | right; now right].
      * lra.
      * constructor; assumption.
    + apply Qlt_bool_false in E.
      repeat split.
      * destruct Hin as [<- | Hin]; [now left | right; now right].
      * assumption.
      * constructor; [lra | assumption].
Qed.

Lemma fold_max_spec (rest : list Q) : forall first,
  let m := fold_left (fun best item => if Qlt_bool best item then item else best)
                     rest first in
  In m (first :: rest) /\ first <= m /\ Forall (fun v => v <= m) rest.
Proof.
  induction rest as [|x rest IH]; intros first; cbn.
  - repeat split; [now left | lra | constructor].
  - specialize (IH (if Qlt_bool first x then x else first)).
    cbn in IH. destruct IH as (Hin & Hle & Hall).
    destruct (Qlt_bool first x) eqn:E.
    + apply Qlt_bool_true in E.
      repeat split.
      * destruct Hin as [<- | Hin]; [right; now left | right; now right].
      * lra.
      * constructor; assumption.
    + apply Qlt_bool_false in E.
      repeat split.
      * destruct Hin as [<- | Hin]; [now left | right; now right].
      * assumption.
      * constructor; [lra | assumption].
Qed.

Lemma py_min_spec (values : list Q) (lower : Q) :
  py_min values = Ok lower ->
  In lower values /\ Forall (fun v => lower <= v) values.
Proof.
  destruct values as [|first rest]; cbn; [discriminate|].
  intros [= <-].
  destruct (fold_min_spec rest first) as (Hin & Hle & Hall).
  split; [exact Hin | constructor; assumption].
Qed.

Lemma py_max_spec (values : list Q) (upper : Q) :
  py_max values = Ok upper ->
  In upper values /\ Forall (fun v => v <= upper) values.
Proof.
  destruct values as [|first rest]; cbn; [discriminate|].
  intros [= <-].
  destruct (fold_max_spec rest first) as (Hin & Hle & Hall).
  split; [exact Hin | constructor; assumption].
Qed.

Lemma py_min_ok (values : list Q) :
  values <> [] -> exists lower, py_min values = Ok lower.
Proof. destruct values; [congruence | intros _; eexists; reflexivity]. Qed.

Lemma py_max_ok (values : list Q) :
  values <> [] -> exists upper, py_max values = Ok upper.
Proof. destruct values; [congruence | intros _; eexists; reflexivity]. Qed.

(** The minimum of the contract is the number [min] returns. *)
Lemma py_min_is_minimum (values : list Q) (lower m : Q) :
  py_min values = Ok lower -> is_minimum m values -> lower == m.
Proof.
  intros Hmin [Hex Hall].
  apply py_min_spec in Hmin as [Hin Hle].
  rewrite Forall_forall in Hall, Hle.
  apply Exists_exists in Hex as (v & Hv & Hvm).
  specialize (Hle v Hv). specialize (Hall lower Hin). lra.
Qed.

Lemma py_max_is_maximum (values : list Q) (upper m : Q) :
  py_max values = Ok upper -> is_maximum m values -> upper == m.
Proof.
  intros Hmax [Hex Hall].
  apply py_max_spec in Hmax as [Hin Hle].
  rewrite Forall_forall in Hall, Hle.
  apply Exists_exists in Hex as (v & Hv & Hvm).
  specialize (Hle v Hv). specialize (Hall upper Hin). lra.
Qed.

Lemma py_min_minimum (values : list Q) (lower : Q) :
  py_min values = Ok lower -> is_minimum lower values.
Proof.
  intros H. apply py_min_spec in H as [Hin Hall]. split; [|exact Hall].
  apply Exists_exists. exists lower. split; [exact Hin | reflexivity].
Qed.

Lemma py_max_maximum (values : list Q) (upper : Q) :
  py_max values = Ok upper -> is_maximum upper values.
Proof.
  intros H. apply py_max_spec in H as [Hin Hall]. split; [|exact Hall].
  apply Exists_exists. exists upper. split; [exact Hin | reflexivity].
Qed.

Lemma minimum_le_maximum (values : list Q) (lower upper : Q) :
  is_minimum lower values -> is_maximum upper values -> lower <= upper.
Proof.
  intros [Hex Hlo] [_ Hhi].
  apply Exists_exists in Hex as (v & Hv & Hvl).
  rewrite Forall_forall in Hhi. specialize (Hhi v Hv). lra.
Qed.

(** ** The three branches of [normalise] *)

Lemma comprehension_div (lower spread : Q) (values : list Q) :
  ~ spread == 0 ->
  comprehension (fun value => py_div (value - lower) spread) values
  = Ok (map (fun value => (value - lower) / spread) values).
Proof.
  intros Hs. apply Qeq_bool_false in Hs.
  induction values as [|v rest IH]; cbn; [reflexivity|].
  unfold py_div at 1. rewrite Hs. cbn. rewrite IH. reflexivity.
Qed.

Lemma normalise_scaled (values : list Q) (lower upper : Q) :
  py_min values = Ok lower -> py_max values = Ok upper -> ~ lower == upper ->
  normalise values
  = Ok (map (fun value => (value - lower) / (upper - lower)) values).
Proof.
  intros Hmin Hmax Hne. unfold normalise.
  destruct values as [|v rest]; [discriminate|].
  cbn [truth negb]. rewrite Hmin, Hmax. cbn [bind].
  apply Qeq_bool_false in Hne. rewrite Hne.
  apply comprehension_div. apply Qeq_bool_false in Hne. lra.
Qed.

Lemma normalise_ones (values : list Q) (lower upper : Q) :
  py_min values = Ok lower -> py_max values = Ok upper -> lower == upper ->
  normalise values = Ok (map (fun _ => 1) values).
Proof.
  intros Hmin Hmax Heq. unfold normalise.
  destruct values as [|v rest]; [discriminate|].
  cbn [truth negb]. rewrite Hmin, Hmax. cbn [bind].
  apply Qeq_bool_iff in Heq. rewrite Heq. reflexivity.
Qed.

Lemma normalise_all_equal (values : list Q) (c : Q) :
  values <> [] ->
  Forall (fun v => v == c) values ->
  normalise values = Ok (map (fun _ => 1) values).
Proof.
  intros Hnil Hall.
  destruct (py_min_ok values Hnil) as [lo Hmin].
  destruct (py_max_ok values Hnil) as [hi Hmax].
  apply (normalise_ones _ _ _ Hmin Hmax).
  apply py_min_spec in Hmin as [Hlo _]. apply py_max_spec in Hmax as [Hhi _].
  rewrite Forall_forall in Hall.
  rewrite (Hall lo Hlo), (Hall hi Hhi). reflexivity.
Qed.

Lemma map_ones_repeat {A : Type} (values : list A) :
  map (fun _ => 1) values = repeat 1 (length values).
Proof. induction values; cbn; congruence. Qed.

(** With the minimum and the maximum of the contract, up to the
    representation of a number. *)
Lemma normalise_scaled_numbers (values : list Q) (lower upper : Q) :
  is_minimum lower values -> is_maximum upper values -> ~ lower == upper ->
  exists out,
    normalise values = Ok out /\
    Forall2 (fun v y => y == (v - lower) / (upper - lower)) values out.
Proof.
  intros Hlo Hhi Hne.
  assert (Hnil : values <> []).
  { destruct Hlo as [Hex _]. intros ->. inversion Hex. }
  destruct (py_min_ok values Hnil) as [lo Hmin].
  destruct (py_max_ok values Hnil) as [hi Hmax].
  pose proof (py_min_is_minimum _ _ _ Hmin Hlo) as El.
  pose proof (py_max_is_maximum _ _ _ Hmax Hhi) as Eh.
  eexists. split.
  - apply (normalise_scaled _ _ _ Hmin Hmax). rewrite El, Eh. exact Hne.
  - clear -El Eh. induction values as [|v rest IH]; cbn; constructor.
    + rewrite El, Eh. reflexivity.
    + exact IH.
Qed.

Lemma scaled_bounds (lower upper v : Q) :
  lower <= v -> v <= upper -> lower < upper ->
  0 <= (v - lower) / (upper - lower) <= 1.
Proof.
  intros Hl Hu Hlt. split.
  - apply Qle_shift_div_l; lra.
  - apply Qle_shift_div_r; lra.
Qed.

Lemma scaled_minimum (lower upper v : Q) :
  v == lower -> (v - lower) / (upper - lower) == 0.
Proof.
  intros ->. unfold Qdiv. setoid_replace (lower - lower) with 0 by ring. ring.
Qed.

Lemma scaled_maximum (lower upper v : Q) :
  ~ lower == upper -> v == upper -> (v - lower) / (upper - lower) == 1.
Proof.
  intros Hne ->. field. lra.
Qed.

(** [normalise] returns a sequence on every input. *)
Lemma normalise_returns (values : list Q) :
  exists out, normalise values = Ok out.
Proof.
  destruct values as [|v rest]; [exists []; reflexivity|].
  assert (Hnil : v :: rest <> []) by discriminate.
  destruct (py_min_ok _ Hnil) as [lo Hmin].
  destruct (py_max_ok _ Hnil) as [hi Hmax].
  destruct (Qeq_bool lo hi) eqn:E.
  - eexists. apply (normalise_ones _ _ _ Hmin Hmax).
    apply Qeq_bool_iff; exact E.
  - eexists. apply (normalise_scaled _ _ _ Hmin Hmax).
    apply Qeq_bool_false; exact E.
Qed.

(** ** Theorems on [normalise] *)

(** C4: [normalise] applied to the empty sequence returns the empty
    sequence. *)
Theorem normalise_empty : normalise [] = Ok [].
Proof. reflexivity. Qed.



(** C3: for a non-empty sequence whose elements all equal one number [c]
    (a single-element sequence is one), [normalise] returns the sequence of
    the same length in which every element is [1.0]. *)
Theorem normalise_constant (values : list Q) (c : Q) :
  values <> [] ->
  Forall (fun v => v == c) values ->
  normalise values = Ok (repeat 1 (length values)).
Proof.
  intros Hnil Hall. rewrite <- map_ones_repeat.
  exact (normalise_all_equal values c Hnil Hall).
Qed.

Lemma normalise_constant_witness :
  normalise [5 # 1; 10 # 2; 15 # 3] = Ok [1; 1; 1].
Proof.
  apply (normalise_constant [5 # 1; 10 # 2; 15 # 3] 5).
  - discriminate.
  - repeat constructor.
Defined.

Lemma normalise_single (x : Q) : normalise [x] = Ok [1].
Proof.
  apply (normalise_ones [x] x x); reflexivity.
Qed.

(** A sequence whose minimum is [0] and whose maximum is [1] comes back as
    the same numbers. *)
Lemma normalise_unit_range (values : list Q) :
  is_minimum 0 values -> is_maximum 1 values ->
  exists out, normalise values = Ok out /\ same_numbers out values.
Proof.
  intros Hlo Hhi.
  assert (Hne : ~ 0 == 1) by discriminate.
  destruct (normalise_scaled_numbers _ _ _ Hlo Hhi Hne) as (out & Hrun & Hout).
  exists out. split; [exact Hrun|]. clear -Hout.
  induction Hout as [|v y vs ys Hy Hrest IH]; constructor; [|exact IH].
  rewrite Hy. field.
Qed.

(** C6: for a non-constant sequence whose minimum is [0.0] and whose maximum
    is [1.0], [normalise] returns the same sequence: the same numbers at the
    same positions.  (A sequence with these two bounds is not constant.) *)
Theorem normalise_already_normalised (values : list Q) :
  is_minimum 0 values ->
  is_maximum 1 values ->
  exists out, normalise values = Ok out /\ same_numbers out values.
Proof. exact (normalise_unit_range values). Qed.

Lemma normalise_already_normalised_witness :
  exists out,
    normalise [1 # 2; 0; 1; 1 # 4] = Ok out /\
    same_numbers out [1 # 2; 0; 1; 1 # 4].
Proof.
  apply (normalise_already_normalised [1 # 2; 0; 1; 1 # 4]).
  - split; [right; left; reflexivity | repeat constructor; discriminate].
  - split; [right; right; left; reflexivity | repeat constructor; discriminate].
Defined.

(** C7: [normalise] raises on no sequence of numbers; when the scaling
    branch is taken ([lower != upper]) the divisor [upper - lower] is not
    zero and each division returns its quotient. *)
Theorem normalise_total (values : list Q) :
  (exists out, normalise values = Ok out) /\
  (forall lower upper : Q,
     py_min values = Ok lower ->
     py_max values = Ok upper ->
     Qeq_bool lower upper = false ->
     ~ upper - lower == 0 /\
     forall v : Q,
       py_div (v - lower) (upper - lower) = Ok ((v - lower) / (upper - lower))).
Proof.
  split; [apply normalise_returns|].
  intros lower upper _ _ E. apply Qeq_bool_false in E.
  assert (Hs : ~ upper - lower == 0) by lra.
  split; [exact Hs|]. intros v. unfold py_div.
  apply Qeq_bool_false in Hs. rewrite Hs. reflexivity.
Qed.

Lemma normalise_total_witness :
  (exists out, normalise [3; 1; 2] = Ok out) /\
  ~ 3 - 1 == 0 /\
  forall v : Q, py_div (v - 1) (3 - 1) = Ok ((v - 1) / (3 - 1)).
Proof.
  destruct (normalise_total [3; 1; 2]) as [Hrun Hdiv].
  split; [exact Hrun|].
  apply (Hdiv 1 3); reflexivity.
Defined.

(** C9: [normalise] is idempotent on every sequence, empty, constant or
    not: normalising the output of [normalise] gives the same numbers. *)
Theorem normalise_idempotent (values : list Q) :
  exists out out',
    normalise values = Ok out /\
    normalise out = Ok out' /\
    same_numbers out' out.
Proof.
  destruct values as [|v rest].
  { exists [], []. repeat split; constructor. }
  assert (Hnil : v :: rest <> []) by discriminate.
  destruct (py_min_ok _ Hnil) as [lo Hmin].
  destruct (py_max_ok _ Hnil) as [hi Hmax].
  destruct (Qeq_bool lo hi) eqn:E.
  - apply Qeq_bool_iff in E.
    pose proof (normalise_ones _ _ _ Hmin Hmax E) as Hrun.
    set (ones := map (fun _ => 1) (v :: rest)) in *.
    assert (Hones : Forall (fun y => y == 1) ones).
    { apply Forall_forall. intros y Hy.
      apply in_map_iff in Hy as (x & <- & _). reflexivity. }
    exists ones, (map (fun _ => 1) ones).
    split; [exact Hrun|]. split.
    + apply (normalise_all_equal ones 1); [discriminate | exact Hones].
    + clear -Hones. induction Hones as [|y ys Hy _ IH]; cbn; constructor.
      * symmetry; exact Hy.
      * exact IH.
  - apply Qeq_bool_false in E.
    pose proof (normalise_scaled _ _ _ Hmin Hmax E) as Hrun.
    set (scale := fun value => (value - lo) / (hi - lo)) in *.
    pose proof (py_min_minimum _ _ Hmin) as Hlo.
    pose proof (py_max_maximum _ _ Hmax) as Hhi.
    assert (Hlt : lo < hi).
    { pose proof (minimum_le_maximum _ _ _ Hlo Hhi). lra. }
    apply py_min_spec in Hmin as [Hlin Hlall].
    apply py_max_spec in Hmax as [Hhin Hhall].
    rewrite Forall_forall in Hlall, Hhall.
    assert (Hbounds : forall x, In x (v :: rest) -> 0 <= scale x <= 1).
    { intros x Hx. apply scaled_bounds; auto. }
    destruct (normalise_unit_range (map scale (v :: rest))) as (out' & Hrun' & Hsame).
    + split.
      * apply Exists_exists. exists (scale lo). split.
        -- apply in_map; exact Hlin.
        -- apply scaled_minimum; reflexivity.
      * apply Forall_forall. intros y Hy.
        apply in_map_iff in Hy as (x & <- & Hx). apply Hbounds; exact Hx.
    + split.
      * apply Exists_exists. exists (scale hi). split.
        -- apply in_map; exact Hhin.
        -- apply scaled_maximum; [exact E | reflexivity].
      * apply Forall_forall. intros y Hy.
        apply in_map_iff in Hy as (x & <- & Hx). apply Hbounds; exact Hx.
    + exists (map scale (v :: rest)), out'. repeat split; assumption.
Qed.

(** ** [summarise]: the filter and the mean *)

Lemma filter_retained (values : list value) :
  filter is_not_None values = map PyFloat (retained values).
Proof.
  induction values as [|[|x] rest IH]; cbn; [reflexivity | exact IH |].
  now rewrite IH.
Qed.



Lemma retained_length (values : list value) :
  (length (retained values) <= length values)%nat.
Proof.
  induction values as [|[|x] rest IH]; cbn; lia.
Qed.

Lemma sum_from_numbers (xs : list Q) : forall acc,
  exists t, sum_from acc (map PyFloat xs) = Ok t /\ t == acc + total xs.
Proof.
  induction xs as [|x rest IH]; intros acc; cbn.
  - exists acc. split; [reflexivity | ring].
  - destruct (IH (acc + x)) as (t & Ht & Et).
    exists t. split; [exact Ht|]. rewrite Et. ring.
Qed.

Lemma inject_Z_len_nonzero {A : Type} (xs : list A) :
  xs <> [] -> Qeq_bool (inject_Z (len xs)) 0 = false.
Proof.
  intros Hnil. apply Qeq_bool_false.
  destruct xs as [|x rest]; [congruence|].
  unfold len, Qeq. cbn [length inject_Z Qnum Qden]. lia.
Qed.

Lemma mean_numbers (xs : list Q) :
  xs <> [] ->
  exists m, mean (map PyFloat xs) = Ok m /\ m == total xs / inject_Z (len xs).
Proof.
  intros Hnil. unfold mean.
  destruct (sum_from_numbers xs 0) as (t & Ht & Et).
  rewrite Ht. cbn [bind].
  assert (Hlen : len (map PyFloat xs) = len xs).
  { unfold len. now rewrite length_map. }
  rewrite Hlen.
  assert (Hpos : (len xs <? 1)%Z = false).
  { apply Z.ltb_ge. destruct xs; [congruence|]. unfold len. cbn [length]. lia. }
  rewrite Hpos. unfold py_div. rewrite (inject_Z_len_nonzero xs Hnil).
  eexists. split; [reflexivity|]. rewrite Et.
  setoid_replace (0 + total xs) with (total xs) by ring. reflexivity.
Qed.

(** The record [summarise] returns, in the words of the contract. *)
Lemma summarise_spec (values : list value) :
  exists s,
    summarise values = Ok s /\
    count s = len (retained values) /\
    ((0 < count s)%Z ->
       average s == total (retained values) / inject_Z (count s)) /\
    (count s = 0%Z -> average s = 0).
Proof.
  unfold summarise. rewrite filter_retained.
  assert (Hlen : len (map PyFloat (retained values)) = len (retained values)).
  { unfold len. now rewrite length_map. }
  rewrite Hlen.
  destruct (retained values) as [|x rest] eqn:E.
  - cbn. eexists. split; [reflexivity|]. cbn [count average].
    split; [reflexivity|]. split; [intros H; discriminate H | reflexivity].
  - cbn [map truth]. rewrite <- E in *.
    assert (Hnil : retained values <> []) by (rewrite E; discriminate).
    change (PyFloat x :: map PyFloat rest) with (map PyFloat (x :: rest)).
    rewrite <- E.
    destruct (mean_numbers _ Hnil) as (m & Hm & Em).
    rewrite Hm. cbn [bind]. eexists. split; [reflexivity|]. cbn [count average].
    split; [reflexivity|]. split; [intros _; exact Em|].
    intros H0. exfalso. rewrite E in H0. unfold len in H0. cbn [length] in H0. lia.
Qed.

(** ** Theorems on [summarise] *)

(** C10: the [count] of the record [summarise] returns is at most the
    length of the input sequence. *)
Theorem summarise_count_at_most_length (values : list value) :
  exists s, summarise values = Ok s /\ (0 <= count s <= len values)%Z.
Proof.
  destruct (summarise_spec values) as (s & Hrun & Hcount & _).
  exists s. split; [exact Hrun|]. rewrite Hcount. unfold len.
  pose proof (retained_length values). lia.
Qed.



(** * Further properties of the module *)

(** ** [normalise] on every input *)










(** ** [normalise] under a change of unit *)















(** ** [summarise]: what the record depends on *)

Lemma summarise_inv (values : list value) (s : Summary) :
  summarise values = Ok s ->
  count s = len (retained values) /\
  ((0 < count s)%Z ->
     average s == total (retained values) / inject_Z (count s)) /\
  (count s = 0%Z -> average s = 0).
Proof.
  intros Hrun.
  destruct (summarise_spec values) as (s' & Hrun' & Hspec).
  rewrite Hrun in Hrun'. injection Hrun' as <-. exact Hspec.
Qed.


Lemma len_cons {A : Type} (x : A) (xs : list A) :
  inject_Z (len (x :: xs)) == 1 + inject_Z (len xs).
Proof.
  unfold len. cbn [length]. rewrite Nat2Z.inj_succ, <- Z.add_1_l.
  rewrite inject_Z_plus. reflexivity.
Qed.

Lemma len_positive {A : Type} (xs : list A) :
  xs <> [] -> 0 < inject_Z (len xs).
Proof.
  destruct xs as [|x rest]; [congruence|]. intros _.
  unfold len, Qlt. cbn [length inject_Z Qnum Qden]. lia.
Qed.

Lemma retained_numbers (xs : list Q) : retained (map PyFloat xs) = xs.
Proof. induction xs; cbn; congruence. Qed.

(** X6: [None] entries never change the record.  Dropping them beforehand,
    or inserting one anywhere, gives the very same [Summary]. *)
Theorem summarise_ignores_absent (before after : list value) :
  summarise (before ++ PyNone :: after) = summarise (before ++ after) /\
  summarise (filter is_not_None (before ++ after))
  = summarise (before ++ after).
Proof.
  unfold summarise. split.
  - rewrite !filter_app. reflexivity.
  - rewrite !filter_retained, retained_numbers. reflexivity.
Qed.

Lemma retained_perm (values values' : list value) :
  Permutation values values' ->
  Permutation (retained values) (retained values').
Proof.
  induction 1 as [|x l l' _ IH|x y l|l l' l'' _ IH1 _ IH2].
  - constructor.
  - destruct x; cbn; [exact IH | now constructor].
  - destruct x, y; cbn; try reflexivity. apply perm_swap.
  - etransitivity; eassumption.
Qed.

Lemma total_perm (xs ys : list Q) :
  Permutation xs ys -> total xs == total ys.
Proof.
  induction 1 as [|x l l' _ IH|x y l|l l' l'' _ IH1 _ IH2]; cbn.
  - reflexivity.
  - rewrite IH. reflexivity.
  - ring.
  - rewrite IH1. exact IH2.
Qed.

(** X7: the record does not depend on the order of the entries.  For two
    sequences with the same entries in any order, [summarise] returns the
    same [count] and the same number as [average]. *)
Theorem summarise_permutation (values values' : list value) :
  Permutation values values' ->
  exists s s',
    summarise values = Ok s /\
    summarise values' = Ok s' /\
    count s = count s' /\
    average s == average s'.
Proof.
  intros Hperm.
  destruct (summarise_spec values) as (s & Hrun & Hcount & Hmean & Hzero).
  destruct (summarise_spec values') as (s' & Hrun' & Hcount' & Hmean' & Hzero').
  exists s, s'. split; [exact Hrun|]. split; [exact Hrun'|].
  pose proof (retained_perm _ _ Hperm) as Hret.
  assert (Hsame : count s = count s').
  { rewrite Hcount, Hcount'. unfold len. now rewrite (Permutation_length Hret). }
  split; [exact Hsame|].
  destruct (Z.eq_dec (count s) 0) as [E | E].
  - rewrite (Hzero E), (Hzero' (eq_trans (eq_sym Hsame) E)). reflexivity.
  - assert (Hpos : (0 < count s)%Z).
    { rewrite Hcount in *. unfold len in *. lia. }
    rewrite (Hmean Hpos), Hmean' by (rewrite <- Hsame; exact Hpos).
    rewrite (total_perm _ _ Hret), Hsame. reflexivity.
Qed.

Lemma summarise_permutation_witness :
  exists s s',
    summarise [PyFloat 1; PyNone; PyFloat 4] = Ok s /\
    summarise [PyNone; PyFloat 4; PyFloat 1] = Ok s' /\
    count s = count s' /\
    average s == average s'.
Proof.
  apply (summarise_permutation [PyFloat 1; PyNone; PyFloat 4]
                               [PyNone; PyFloat 4; PyFloat 1]).
  apply perm_trans with (l' := [PyNone; PyFloat 1; PyFloat 4]).
  - apply perm_swap.
  - apply perm_skip. apply perm_swap.
Defined.

(** ** [summarise]: where the average lies *)

Lemma total_between (a b : Q) (xs : list Q) :
  Forall (fun x => a <= x <= b) xs ->
  inject_Z (len xs) * a <= total xs <= inject_Z (len xs) * b.
Proof.
  induction 1 as [|x rest [Hxa Hxb] _ [IHa IHb]].
  - cbn [total]. change (inject_Z (len (@nil Q))) with 0.
    rewrite !Qmult_0_l. split; apply Qle_refl.
  - cbn [total]. rewrite len_cons. split.
    + setoid_replace ((1 + inject_Z (len rest)) * a)
        with (a + inject_Z (len rest) * a) by ring.
      set (p := inject_Z (len rest) * a) in *. lra.
    + setoid_replace ((1 + inject_Z (len rest)) * b)
        with (b + inject_Z (len rest) * b) by ring.
      set (p := inject_Z (len rest) * b) in *. lra.
Qed.

Lemma mean_between (a b : Q) (xs : list Q) :
  xs <> [] ->
  Forall (fun x => a <= x <= b) xs ->
  a <= total xs / inject_Z (len xs) <= b.
Proof.
  intros Hnil Hall. pose proof (len_positive xs Hnil) as Hpos.
  destruct (total_between a b xs Hall) as [Ha Hb]. split.
  - apply Qle_shift_div_l; [exact Hpos|]. rewrite Qmult_comm. exact Ha.
  - apply Qle_shift_div_r; [exact Hpos|]. rewrite Qmult_comm. exact Hb.
Qed.

Lemma summarise_between (a b : Q) (values : list value) (s : Summary) :
  summarise values = Ok s ->
  retained values <> [] ->
  Forall (fun x => a <= x <= b) (retained values) ->
  a <= average s <= b.
Proof.
  intros Hrun Hnil Hall.
  destruct (summarise_inv _ _ Hrun) as (Hcount & Hmean & _).
  assert (Hpos : (0 < count s)%Z).
  { rewrite Hcount. destruct (retained values); [congruence|].
    unfold len. cbn [length]. lia. }
  rewrite (Hmean Hpos), Hcount. apply mean_between; assumption.
Qed.

(** X8: when some entry is a number, the [average] lies between the
    smallest and the greatest of the numbers. *)
Theorem summarise_average_between
  (values : list value) (s : Summary) (lo hi : Q) :
  summarise values = Ok s ->
  py_min (retained values) = Ok lo ->
  py_max (retained values) = Ok hi ->
  lo <= average s <= hi.
Proof.
  intros Hrun Hmin Hmax.
  apply (summarise_between lo hi values s Hrun).
  - intros E. rewrite E in Hmin. discriminate.
  - destruct (py_min_spec _ _ Hmin) as [_ Hlo].
    destruct (py_max_spec _ _ Hmax) as [_ Hhi].
    rewrite Forall_forall in *. intros x Hx. split; auto.
Qed.

Lemma summarise_average_between_witness :
  exists s,
    summarise [PyFloat 5; PyNone; PyFloat 3; PyFloat 7] = Ok s /\
    3 <= average s <= 7.
Proof.
  eexists. split; [reflexivity|].
  apply (summarise_average_between
           [PyFloat 5; PyNone; PyFloat 3; PyFloat 7] _ 3 7);
    reflexivity.
Defined.


(** ** [summarise] under a change of unit *)





(** ** [summarise] after [normalise] *)





(** ** [summarise] with nothing to average *)

Lemma retained_nil (values : list value) :
  retained values = [] <-> Forall (fun v => v = PyNone) values.
Proof.
  induction values as [|[|x] rest IH]; cbn.
  - split; [constructor | reflexivity].
  - rewrite IH. split; [now constructor | now inversion 1].
  - split; [discriminate | inversion 1; discriminate].
Qed.

(** X13: the record with [count = 0] and [average = 0.0] is returned
    exactly for the sequences that hold no number: the empty sequence and
    the sequences of [None] only.  As soon as one entry is a number,
    [count] is at least one. *)
Theorem summarise_nothing_retained (values : list value) :
  exists s,
    summarise values = Ok s /\
    (Forall (fun v => v = PyNone) values -> s = mkSummary 0 0) /\
    (count s = 0%Z -> Forall (fun v => v = PyNone) values) /\
    (Exists (fun v => is_not_None v = true) values -> (1 <= count s)%Z).
Proof.
  destruct (summarise_spec values) as (s & Hrun & Hcount & _ & Hzero).
  exists s. split; [exact Hrun|].
  assert (Hiff : count s = 0%Z <-> Forall (fun v => v = PyNone) values).
  { rewrite <- retained_nil, Hcount. unfold len.
    destruct (retained values); cbn [length]; split; intros H;
      try reflexivity; try discriminate; lia. }
  split; [|split].
  - intros Hall. apply Hiff in Hall. specialize (Hzero Hall).
    destruct s as [n a]. cbn [count average] in Hall, Hzero.
    rewrite Hall, Hzero. reflexivity.
  - apply Hiff.
  - intros Hex. destruct (Z.eq_dec (count s) 0) as [E | E].
    + apply Hiff in E. apply Exists_exists in Hex as (v & Hv & Hnn).
      rewrite Forall_forall in E. rewrite (E v Hv) in Hnn. discriminate.
    + rewrite Hcount in *. unfold len in *. lia.
Qed.

Lemma summarise_nothing_retained_witness :
  summarise [PyNone; PyNone] = Ok (mkSummary 0 0).
Proof.
  destruct (summarise_nothing_retained [PyNone; PyNone])
    as (s & Hrun & Hnone & _).
  rewrite Hrun. f_equal. apply Hnone. repeat constructor.
Defined.

(** ** The extremes of the output *)



(** * The code on binary64 numbers *)

(** ** Where the floats leave exact arithmetic *)

(** Rounding makes distinct inputs meet: 1 and 2 both come out as 0.5
    next to -1e17 and 1e17. *)
Example normalise_binary64_ties :
  Binary64.normalise
    [(-100000000000000000)%float; 1%float; 2%float; 100000000000000000%float]
  = Ok [0%float; 0.5%float; 0.5%float; 1%float].
Proof. vm_compute. reflexivity. Qed.


(** ** [summarise] on binary64 numbers *)

Lemma filter_retained_floats (values : list Binary64.value) :
  filter Binary64.is_not_None values
  = map Binary64.PyFloat (retained_floats values).
Proof.
  induction values as [|[|x] rest IH]; cbn; [reflexivity | exact IH |].
  now rewrite IH.
Qed.

Lemma sum_from_returns (xs : list float) : forall total special,
  exists sums,
    Binary64.sum_from total special (map Binary64.PyFloat xs) = Ok sums.
Proof.
  induction xs as [|x rest IH]; intros total special; cbn.
  - eexists; reflexivity.
  - destruct (Binary64.exact x); apply IH.
Qed.

Lemma sum_from_finite (xs : list float) : forall qs total special,
  exact_values xs = Some qs ->
  Binary64.sum_from total special (map Binary64.PyFloat xs)
  = Ok (fold_left Qplus qs total, special).
Proof.
  induction xs as [|x rest IH]; intros qs total special; cbn.
  - intros [= <-]. reflexivity.
  - destruct (Binary64.exact x) as [q|]; [|discriminate].
    destruct (exact_values rest) as [qs'|]; [|discriminate].
    intros [= <-]. cbn. apply IH. reflexivity.
Qed.

Lemma mean_binary64 (xs : list float) :
  xs <> [] ->
  exists m,
    Binary64.mean (map Binary64.PyFloat xs) = Ok m /\
    forall qs,
      exact_values xs = Some qs ->
      m = Binary64.nearest (fold_left Qplus qs 0 / inject_Z (len xs)).
Proof.
  intros Hnil. unfold Binary64.mean.
  assert (Hlen : len (map Binary64.PyFloat xs) = len xs).
  { unfold len. now rewrite length_map. }
  assert (Hpos : (len xs <? 1)%Z = false).
  { apply Z.ltb_ge. destruct xs; [congruence|]. unfold len. cbn [length]. lia. }
  destruct (sum_from_returns xs 0 None) as [[t sp] Hsum].
  rewrite Hsum. cbn [bind]. rewrite Hlen, Hpos. cbn [fst snd].
  destruct sp as [s|]; eexists; (split; [reflexivity|]); intros qs Hqs;
    rewrite (sum_from_finite xs qs 0 None Hqs) in Hsum; injection Hsum as <-.
  - discriminate.
  - reflexivity.
Qed.

(** C2, counterexample: on [[1.0, 2.0, 2.0]] the [average] is a float whose
    exact value is not the sum 5 divided by the count 3. *)
Lemma summarise_binary64_rounds :
  exists s q,
    Binary64.summarise
      [Binary64.PyFloat 1%float; Binary64.PyFloat 2%float;
       Binary64.PyFloat 2%float] = Ok s /\
    Binary64.count s = 3%Z /\
    Binary64.exact (Binary64.average s) = Some q /\
    ~ q == (1 + 2 + 2) / 3.
Proof.
  eexists. eexists. split; [vm_compute; reflexivity|].
  split; [reflexivity|]. split; [vm_compute; reflexivity|].
  intros H. vm_compute in H. discriminate H.
Qed.

(** C2 (amended): [summarise] returns, on every input, a record whose
    [count] is the number of entries that are not [None] and whose
    [average] is, when [count > 0] and the retained entries are finite,
    their exact sum divided by [count] and rounded once to the nearest
    binary64 number, and is exactly [0.0] when [count == 0]; the filter
    drops the absent entries and keeps the others in their order. *)
Theorem summarise_count_rounded_average (values : list Binary64.value) :
  exists s,
    Binary64.summarise values = Ok s /\
    filter Binary64.is_not_None values
    = map Binary64.PyFloat (retained_floats values) /\
    Binary64.count s = Z.of_nat (length (retained_floats values)) /\
    ((0 < Binary64.count s)%Z ->
     forall qs,
       exact_values (retained_floats values) = Some qs ->
       Binary64.average s
       = Binary64.nearest
           (fold_left Qplus qs 0 / inject_Z (Binary64.count s))) /\
    (Binary64.count s = 0%Z -> Binary64.average s = 0%float).
Proof.
  unfold Binary64.summarise. rewrite filter_retained_floats.
  assert (Hlen : len (map Binary64.PyFloat (retained_floats values))
                 = Z.of_nat (length (retained_floats values))).
  { unfold len. now rewrite length_map. }
  rewrite Hlen.
  destruct (retained_floats values) as [|x rest] eqn:E.
  - cbn. eexists. split; [reflexivity|]. cbn [Binary64.count Binary64.average].
    repeat split; try reflexivity. intros H; discriminate H.
  - cbn [map truth]. rewrite <- E in *.
    assert (Hnil : retained_floats values <> []) by (rewrite E; discriminate).
    change (Binary64.PyFloat x :: map Binary64.PyFloat rest)
      with (map Binary64.PyFloat (x :: rest)).
    rewrite <- E.
    destruct (mean_binary64 _ Hnil) as (m & Hm & Hexact).
    rewrite Hm. cbn [bind]. eexists. split; [reflexivity|].
    cbn [Binary64.count Binary64.average].
    split; [reflexivity|]. split; [reflexivity|]. split.
    + intros _ qs Hqs. exact (Hexact qs Hqs).
    + intros H0. exfalso. rewrite E in H0. cbn [length] in H0. lia.
Qed.

Lemma summarise_count_rounded_average_witness :
  exists s,
    Binary64.summarise
      [Binary64.PyFloat 1%float; Binary64.PyNone; Binary64.PyFloat 2%float;
       Binary64.PyFloat 2%float]
    = Ok s /\
    Binary64.count s = 3%Z /\
    Binary64.average s = Binary64.nearest (5 # 3).
Proof.
  destruct (summarise_count_rounded_average
              [Binary64.PyFloat 1%float; Binary64.PyNone;
               Binary64.PyFloat 2%float; Binary64.PyFloat 2%float])
    as (s & Hrun & _ & Hcount & Hmean & _).
  exists s. split; [exact Hrun|]. split; [exact Hcount|].
  assert (Hpos : (0 < Binary64.count s)%Z) by (rewrite Hcount; reflexivity).
  rewrite (Hmean Hpos _ eq_refl).
  rewrite Hcount. vm_compute. reflexivity.
Defined.

(** * The calls on the object store *)

(** ** Computations that only allocate *)

Lemma unchanged_app (h added : Store.heap) : unchanged h (h ++ added).
Proof.
  intros a o Ha. unfold Store.load in *. rewrite nth_error_app1; [exact Ha|].
  apply nth_error_Some. congruence.
Qed.

Lemma only_allocates_ret {A : Type} (a : A) : only_allocates (Store.ret a).
Proof. intros h. exists []. cbn. now rewrite app_nil_r. Qed.

Lemma only_allocates_lift {A : Type} (r : result A) :
  only_allocates (Store.lift r).
Proof. intros h. exists []. cbn. now rewrite app_nil_r. Qed.

Lemma only_allocates_read (a : Store.addr) : only_allocates (Store.read a).
Proof.
  intros h. exists []. unfold Store.read.
  destruct (Store.load h a) as [[items|s]|]; cbn; now rewrite app_nil_r.
Qed.

Lemma only_allocates_truth_at (a : Store.addr) :
  only_allocates (Store.truth_at a).
Proof.
  intros h. exists []. unfold Store.truth_at.
  destruct (Store.load h a) as [[items|s]|]; cbn; now rewrite app_nil_r.
Qed.

Lemma only_allocates_new (o : Store.object) : only_allocates (Store.new o).
Proof. intros h. exists [o]. reflexivity. Qed.

Lemma only_allocates_bind {A B : Type} (m : Store.M A) (k : A -> Store.M B) :
  only_allocates m -> (forall a, only_allocates (k a)) ->
  only_allocates (Store.bind m k).
Proof.
  intros Hm Hk h. unfold Store.bind.
  destruct (Hm h) as [added Hadd]. destruct (m h) as [[a|e] h1]; cbn in Hadd.
  - destruct (Hk a h1) as [added' Hadd']. exists (added ++ added').
    rewrite Hadd', Hadd. now rewrite app_assoc.
  - exists added. exact Hadd.
Qed.

Lemma returns_fresh_new (o : Store.object) : returns_fresh (Store.new o).
Proof.
  intros h h' r [= <- <-]. unfold fresh, Store.load. split.
  - apply nth_error_None. lia.
  - exists o. rewrite nth_error_app2 by lia. now rewrite Nat.sub_diag.
Qed.

Lemma returns_fresh_bind {A : Type}
  (m : Store.M A) (k : A -> Store.M Store.addr) :
  only_allocates m -> (forall a, returns_fresh (k a)) ->
  returns_fresh (Store.bind m k).
Proof.
  intros Hm Hk h h' r Hrun. unfold Store.bind in Hrun.
  destruct (Hm h) as [added Hadd]. destruct (m h) as [[a|e] h1];
    [|discriminate]. cbn in Hadd. subst h1.
  destruct (Hk a _ _ _ Hrun) as [Hfresh Hobj]. split; [|exact Hobj].
  unfold fresh, Store.load in *. apply nth_error_None in Hfresh.
  apply nth_error_None. rewrite length_app in Hfresh. lia.
Qed.

Ltac allocates :=
  repeat first
    [ apply only_allocates_ret
    | apply only_allocates_lift
    | apply only_allocates_read
    | apply only_allocates_truth_at
    | apply only_allocates_new
    | apply only_allocates_bind; [|intros ?]
    | match goal with
      | |- only_allocates (if ?b then _ else _) => destruct b
      end ].

Ltac fresh_result :=
  repeat first
    [ apply returns_fresh_new
    | apply returns_fresh_bind; [allocates | intros ?]
    | match goal with
      | |- returns_fresh (if ?b then _ else _) => destruct b
      end ].

Lemma normalise_only_allocates (values : Store.addr) :
  only_allocates (Store.normalise values).
Proof. unfold Store.normalise. allocates. Qed.

Lemma normalise_returns_fresh (values : Store.addr) :
  returns_fresh (Store.normalise values).
Proof. unfold Store.normalise. fresh_result. Qed.

Lemma summarise_only_allocates (values : Store.addr) :
  only_allocates (Store.summarise values).
Proof. unfold Store.summarise. allocates. Qed.

Lemma summarise_returns_fresh (values : Store.addr) :
  returns_fresh (Store.summarise values).
Proof. unfold Store.summarise. fresh_result. Qed.

(** ** The bodies on a list of numbers *)

Lemma bind_read {B : Type} (a : Store.addr) (items : list value)
  (k : list value -> Store.M B) (h : Store.heap) :
  Store.load h a = Some (Store.ListObj items) ->
  Store.bind (Store.read a) k h = k items h.
Proof. intros Ha. unfold Store.bind, Store.read. now rewrite Ha. Qed.

Lemma bind_truth_at {B : Type} (a : Store.addr) (items : list value)
  (k : bool -> Store.M B) (h : Store.heap) :
  Store.load h a = Some (Store.ListObj items) ->
  Store.bind (Store.truth_at a) k h = k (truth items) h.
Proof. intros Ha. unfold Store.bind, Store.truth_at. now rewrite Ha. Qed.

Lemma load_new (h : Store.heap) (o : Store.object) :
  Store.load (h ++ [o]) (length h) = Some o.
Proof.
  unfold Store.load. rewrite nth_error_app2 by lia. now rewrite Nat.sub_diag.
Qed.

Lemma min_numbers (xs : list Q) :
  Store.min (map PyFloat xs) = (lo <- py_min xs ;; Ok (PyFloat lo)).
Proof.
  destruct xs as [|first rest]; [reflexivity|]. cbn.
  revert first. induction rest as [|x rest IH]; intros first; cbn;
    [reflexivity|].
  destruct (Qlt_bool x first); apply IH.
Qed.

Lemma max_numbers (xs : list Q) :
  Store.max (map PyFloat xs) = (hi <- py_max xs ;; Ok (PyFloat hi)).
Proof.
  destruct xs as [|first rest]; [reflexivity|]. cbn.
  revert first. induction rest as [|x rest IH]; intros first; cbn;
    [reflexivity|].
  destruct (Qlt_bool first x); apply IH.
Qed.

Lemma comprehension_numbers (lo spread : Q) (xs : list Q) :
  comprehension
    (fun value =>
       d <- Store.sub value (PyFloat lo) ;; Store.truediv d (PyFloat spread))
    (map PyFloat xs)
  = (out <- comprehension (fun v => py_div (v - lo) spread) xs ;;
     Ok (map PyFloat out)).
Proof.
  induction xs as [|x rest IH]; cbn; [reflexivity|].
  destruct (py_div (x - lo) spread) as [q|e]; cbn; [|reflexivity].
  rewrite IH.
  destruct (comprehension (fun v => py_div (v - lo) spread) rest);
    reflexivity.
Qed.

Lemma normalise_on_numbers
  (h : Store.heap) (values : Store.addr) (xs out : list Q) :
  Store.load h values = Some (Store.ListObj (map PyFloat xs)) ->
  normalise xs = Ok out ->
  Store.normalise values h
  = (Ok (length h), h ++ [Store.ListObj (map PyFloat out)]).
Proof.
  intros Hload Hrun. unfold Store.normalise.
  rewrite (bind_truth_at _ _ _ _ Hload).
  destruct xs as [|v rest].
  { injection Hrun as <-. reflexivity. }
  cbn [map truth negb]. change (PyFloat v :: map PyFloat rest)
    with (map PyFloat (v :: rest)) in *.
  unfold normalise in Hrun. cbn [truth negb] in Hrun.
  destruct (py_min (v :: rest)) as [lo|e] eqn:Hmin; [|discriminate].
  destruct (py_max (v :: rest)) as [hi|e] eqn:Hmax; [|discriminate].
  cbn [bind] in Hrun.
  unfold Store.bind at 1. rewrite (bind_read _ _ _ _ Hload).
  unfold Store.lift. rewrite min_numbers, Hmin. cbn [bind].
  unfold Store.bind at 1. rewrite (bind_read _ _ _ _ Hload).
  rewrite max_numbers, Hmax. cbn [bind Store.equal].
  destruct (Qeq_bool lo hi).
  - assert (out = map (fun _ => 1) (v :: rest)) as -> by congruence.
    rewrite (bind_read _ _ _ _ Hload).
    unfold Store.new. rewrite !map_map. reflexivity.
  - unfold Store.bind at 1. cbn [Store.sub].
    rewrite (bind_read _ _ _ _ Hload).
    unfold Store.bind at 1. rewrite comprehension_numbers, Hrun.
    reflexivity.
Qed.

Lemma summarise_on_list
  (h : Store.heap) (values : Store.addr) (items : list value) (s : Summary) :
  Store.load h values = Some (Store.ListObj items) ->
  summarise items = Ok s ->
  Store.summarise values h
  = (Ok (S (length h)),
     h ++ [Store.ListObj (filter is_not_None items); Store.SummaryObj s]).
Proof.
  intros Hload Hrun. unfold Store.summarise.
  rewrite (bind_read _ _ _ _ Hload).
  unfold Store.bind at 1. cbn [Store.new].
  set (cleaned := filter is_not_None items) in *.
  pose proof (load_new h (Store.ListObj cleaned)) as Hnew.
  unfold Store.bind at 1. rewrite (bind_read _ _ _ _ Hnew).
  cbn [Store.ret]. rewrite (bind_truth_at _ _ _ _ Hnew).
  unfold summarise in Hrun. fold cleaned in Hrun.
  unfold Store.bind at 1.
  destruct (truth cleaned).
  - rewrite (bind_read _ _ _ _ Hnew). unfold Store.lift.
    destruct (mean cleaned) as [m|e]; [|discriminate].
    injection Hrun as <-. unfold Store.new.
    rewrite length_app, Nat.add_1_r, <- app_assoc. reflexivity.
  - injection Hrun as <-. cbn [Store.ret]. unfold Store.new.
    rewrite length_app, Nat.add_1_r, <- app_assoc. reflexivity.
Qed.

(** C8: neither call mutates its input sequence.  However [normalise] or
    [summarise] ends, with a value or with an exception, every object that
    was in the store is still there and is the same, the input sequence
    among them; a returned reference is the address of an object that was
    not in the store before the call.  On a list of numbers the calls
    return, and the new object holds what the function computes. *)
Theorem calls_do_not_mutate (h : Store.heap) (values : Store.addr) :
  (forall res h',
     Store.normalise values h = (res, h') ->
     unchanged h h' /\
     forall r, res = Ok r -> fresh h r /\ exists o, Store.load h' r = Some o) /\
  (forall res h',
     Store.summarise values h = (res, h') ->
     unchanged h h' /\
     forall r, res = Ok r -> fresh h r /\ exists o, Store.load h' r = Some o) /\
  (forall xs : list Q,
     Store.load h values = Some (Store.ListObj (map PyFloat xs)) ->
     exists out r h',
       normalise xs = Ok out /\
       Store.normalise values h = (Ok r, h') /\
       Store.load h' values = Some (Store.ListObj (map PyFloat xs)) /\
       Store.load h' r = Some (Store.ListObj (map PyFloat out))) /\
  (forall items : list value,
     Store.load h values = Some (Store.ListObj items) ->
     exists s r h',
       summarise items = Ok s /\
       Store.summarise values h = (Ok r, h') /\
       Store.load h' values = Some (Store.ListObj items) /\
       Store.load h' r = Some (Store.SummaryObj s)).
Proof.
  split; [|split; [|split]].
  - intros res h' Hrun. split.
    + destruct (normalise_only_allocates values h) as [added Hadd].
      rewrite Hrun in Hadd. cbn in Hadd. subst h'. apply unchanged_app.
    + intros r ->. exact (normalise_returns_fresh values _ _ _ Hrun).
  - intros res h' Hrun. split.
    + destruct (summarise_only_allocates values h) as [added Hadd].
      rewrite Hrun in Hadd. cbn in Hadd. subst h'. apply unchanged_app.
    + intros r ->. exact (summarise_returns_fresh values _ _ _ Hrun).
  - intros xs Hload. destruct (normalise_returns xs) as [out Hout].
    exists out, (length h), (h ++ [Store.ListObj (map PyFloat out)]).
    split; [exact Hout|].
    split; [exact (normalise_on_numbers _ _ _ _ Hload Hout)|].
    split; [apply unchanged_app; exact Hload | apply load_new].
  - intros items Hload. destruct (summarise_spec items) as (s & Hs & _).
    exists s, (S (length h)),
      (h ++ [Store.ListObj (filter is_not_None items); Store.SummaryObj s]).
    split; [exact Hs|].
    split; [exact (summarise_on_list _ _ _ _ Hload Hs)|].
    split; [apply unchanged_app; exact Hload|].
    unfold Store.load. rewrite nth_error_app2 by lia.
    replace (S (length h) - length h)%nat with 1%nat by lia. reflexivity.
Qed.

Lemma calls_do_not_mutate_witness :
  (exists out r h',
     normalise [1; 3] = Ok out /\
     Store.normalise 0%nat [Store.ListObj [PyFloat 1; PyFloat 3]]
     = (Ok r, h') /\
     Store.load h' 0%nat = Some (Store.ListObj [PyFloat 1; PyFloat 3]) /\
     Store.load h' r = Some (Store.ListObj (map PyFloat out))) /\
  (exists s r h',
     summarise [PyFloat 1; PyFloat 3] = Ok s /\
     Store.summarise 0%nat [Store.ListObj [PyFloat 1; PyFloat 3]]
     = (Ok r, h') /\
     Store.load h' 0%nat = Some (Store.ListObj [PyFloat 1; PyFloat 3]) /\
     Store.load h' r = Some (Store.SummaryObj s)) /\
  unchanged [Store.ListObj [PyFloat 1; PyFloat 3]]
            (snd (Store.normalise 0%nat [Store.ListObj [PyFloat 1; PyFloat 3]])).
Proof.
  destruct (calls_do_not_mutate [Store.ListObj [PyFloat 1; PyFloat 3]] 0%nat)
    as (Hn & _ & Hnum & Hsum).
  split; [exact (Hnum [1; 3] eq_refl)|].
  split; [exact (Hsum [PyFloat 1; PyFloat 3] eq_refl)|].
  exact (proj1 (Hn _ _ eq_refl)).
Defined.

(** The two properties are properties of these bodies, not of every
    computation on the store: a body that hands back its argument returns
    nothing new, and a body that empties the store does not only
    allocate. *)
Remark returning_the_argument_is_not_fresh :
  ~ returns_fresh (Store.ret 0%nat).
Proof.
  intros H.
  destruct (H [Store.ListObj []] [Store.ListObj []] 0%nat eq_refl) as [Hf _].
  discriminate Hf.
Qed.

Remark emptying_the_store_is_not_allocation :
  ~ only_allocates (fun _ : Store.heap => (Ok tt, @nil Store.object)).
Proof.
  intros H. destruct (H [Store.ListObj []]) as [added Hadd].
  discriminate Hadd.
Qed.

(** ** [normalise] on a sequence that holds [None] *)

Lemma best_of_None (better : value -> value -> result bool)
  (best : value) (rest : list value) :
  (forall item other, better item other = Store.lt item other \/
                      better item other = Store.lt other item) ->
  In PyNone (best :: rest) -> rest <> [] ->
  Store.best_of better best rest = Err TypeError.
Proof.
  intros Hb. revert best. induction rest as [|item rest IH];
    intros best Hin Hnil; [congruence|]. cbn.
  assert (Hcmp : (best = PyNone \/ item = PyNone) ->
                 better item best = Err TypeError).
  { intros Hnone. destruct (Hb item best) as [-> | ->];
      destruct item, best; try reflexivity; destruct Hnone; discriminate. }
  destruct Hin as [Hbest | [Hitem | Hrest]].
  - rewrite Hcmp by (left; congruence). reflexivity.
  - rewrite Hcmp by (right; congruence). reflexivity.
  - destruct (better item best) as [b|e] eqn:E.
    + cbn. apply IH; [right; exact Hrest | intros ->; contradiction].
    + cbn [bind]. destruct (Hb item best) as [H | H]; rewrite H in E;
        destruct item, best; cbn in E; congruence.
Qed.

(** X15: [None] in the argument of [normalise].  A sequence of two or more
    entries with a [None] among them makes the call raise [TypeError], at
    the first comparison of [min], before anything is allocated; the
    one-entry sequence [[None]] is not rejected and gives [[1.0]]. *)
Theorem normalise_on_None
  (h : Store.heap) (values : Store.addr) (items : list value) :
  Store.load h values = Some (Store.ListObj items) ->
  (In PyNone items -> (2 <= length items)%nat ->
   Store.normalise values h = (Err TypeError, h)) /\
  (items = [PyNone] ->
   Store.normalise values h
   = (Ok (length h), h ++ [Store.ListObj [PyFloat 1]])).
Proof.
  intros Hload. split.
  - intros Hin Hlen. unfold Store.normalise.
    rewrite (bind_truth_at _ _ _ _ Hload).
    destruct items as [|first [|second rest]]; cbn in Hlen; try lia.
    cbn [truth negb]. unfold Store.bind at 1.
    rewrite (bind_read _ _ _ _ Hload). unfold Store.lift, Store.min.
    rewrite best_of_None; [reflexivity | | exact Hin | discriminate].
    intros item other. left. reflexivity.
  - intros ->.
    unfold Store.normalise, Store.bind, Store.truth_at, Store.read, Store.lift.
    repeat (rewrite Hload; cbn). reflexivity.
Qed.

Lemma normalise_on_None_witness :
  Store.normalise 0%nat [Store.ListObj [PyFloat 2; PyNone; PyFloat 3]]
  = (Err TypeError, [Store.ListObj [PyFloat 2; PyNone; PyFloat 3]]) /\
  Store.normalise 0%nat [Store.ListObj [PyNone]]
  = (Ok 1%nat, [Store.ListObj [PyNone]; Store.ListObj [PyFloat 1]]).
Proof.
  split.
  - apply (normalise_on_None [Store.ListObj [PyFloat 2; PyNone; PyFloat 3]]
             0%nat [PyFloat 2; PyNone; PyFloat 3] eq_refl).
    + right. left. reflexivity.
    + cbn. lia.
  - apply (normalise_on_None [Store.ListObj [PyNone]] 0%nat [PyNone] eq_refl).
    reflexivity.
Defined.
